(** * browse-pdb: the interactive PDB structure viewer

    A shallow embedding of the notebook
    [6-projects/3D-visualization/browse-pdb.ipynb]: the callback [view3d]
    that [view_structure] hands to the widget layer, the slider it builds,
    and the properties the specification states about them.

    Python integers are [Z], Python strings are [string], a data frame is the
    list of its rows, exceptions are an explicit [result], and the two output
    channels of a notebook cell (the text stream and the display area) are
    threaded through a small state-and-error monad. *)

From Stdlib Require Import ZArith List String Ascii Bool QArith Lia.
From Stdlib Require Import DecimalString DecimalZ DecimalPos.
Import ListNotations.

Local Open Scope string_scope.
Local Open Scope Z_scope.
Local Set Warnings "-register-all".

(** ** Python values and exceptions *)

Module Py.

(** The exceptions the modelled code can raise. *)
Inductive exn : Type :=
| IndexError
| TraitError.

Inductive result (A : Type) : Type :=
| Ok (a : A)
| Raise (e : exn).

Arguments Ok {A} a.
Arguments Raise {A} e.

Definition rbind {A B : Type} (r : result A) (k : A -> result B) : result B :=
  match r with
  | Ok a => k a
  | Raise e => Raise e
  end.

(** Surface kinds exported as constants by the [py3Dmol] module. *)
Inductive SurfaceType : Type := VDW | MS | SAS | SES.

(** The literals passed to the viewer: dictionaries with string keys,
    strings, booleans and decimal literals.  A decimal literal is kept as
    the exact fraction written in the notebook ([0.6] is [6 # 10]); no
    arithmetic is ever done on it. *)
Inductive pyval : Type :=
| PyStr (s : string)
| PyBool (b : bool)
| PyFloat (q : Q)
| PySurf (t : SurfaceType)
| PyDict (items : list (string * pyval)).

(** The line feed that [print] appends. *)
Definition LF : ascii := "010"%char.
Definition newline : string := String LF EmptyString.

(** [str(n)] for an integer, which is what [print] applies to an integer
    argument: the decimal digits, after a minus sign for a negative
    number. *)
Definition str (n : Z) : string := NilZero.string_of_int (Z.to_int n).

End Py.
Import Py.

(** ** The [py3Dmol] viewer object

    A [py3Dmol.view] records the query it was created with, its options and
    canvas size, and every method call made on it, in call order; the calls
    are replayed by the JavaScript library when the viewer is shown. *)

Module Py3Dmol.

Record Call : Type := mkCall {
  method : string;
  args : list pyval
}.

Record Viewer : Type := mkViewer {
  query : string;
  options : pyval;
  width : Z;
  height : Z;
  calls : list Call
}.

(** [py3Dmol.view(query=..., options=..., width=..., height=...)] *)
Definition view (query : string) (options : pyval) (width height : Z) : Viewer :=
  {| query := query; options := options; width := width; height := height;
     calls := [] |}.

Definition invoke (m : string) (a : list pyval) (v : Viewer) : Viewer :=
  {| query := query v; options := options v; width := width v;
     height := height v; calls := (calls v ++ [mkCall m a])%list |}.

Definition setStyle : list pyval -> Viewer -> Viewer := invoke "setStyle".
Definition addSurface : list pyval -> Viewer -> Viewer := invoke "addSurface".

End Py3Dmol.
Import Py3Dmol.

(** ** The notebook cell as a state-and-error monad *)

Module Cell.

(** What an executing cell writes to: the text stream and the display
    area. *)
Record World : Type := mkWorld {
  stdout : string;
  display : list Viewer
}.

Definition IO (A : Type) : Type := World -> result A * World.

Definition ret {A : Type} (a : A) : IO A := fun w => (Ok a, w).

Definition bind {A B : Type} (c : IO A) (k : A -> IO B) : IO B :=
  fun w =>
    match c w with
    | (Ok a, w') => k a w'
    | (Raise e, w') => (Raise e, w')
    end.

Definition lift {A : Type} (r : result A) : IO A := fun w => (r, w).

(** [print(a, b, ...)]: the arguments separated by one space, then a line
    feed, appended to the text stream. *)
Definition print (items : list string) : IO unit :=
  fun w =>
    (Ok tt, {| stdout := stdout w ++ String.concat " " items ++ newline;
               display := display w |}).

(** [viewer.show()]: publishes the viewer to the display area and returns
    [None]. *)
Definition show (v : Viewer) : IO unit :=
  fun w =>
    (Ok tt, {| stdout := stdout w; display := (display w ++ [v])%list |}).

End Cell.
Import Cell.

Declare Scope io_scope.
Delimit Scope io_scope with io.
Notation "x <- c ;; k" := (bind c (fun x => k))
  (at level 61, c at next level, right associativity) : io_scope.
Notation "c ;; k" := (bind c (fun _ => k))
  (at level 61, right associativity) : io_scope.

(** ** The fetched identifier table *)

Module Pandas.

(** One row of the table read from the catalog: the total record count and
    one accession code. *)
Record Row : Type := mkRow {
  resultCount : Z;
  idList : string
}.

Definition DataFrame : Type := list Row.

Definition len (df : DataFrame) : Z := Z.of_nat (List.length df).

(** [df.iloc[k]] for an integer [k]: positions [-len .. len-1] are
    accepted, a negative one counting from the end; anything else raises
    [IndexError]. *)
Definition iloc (df : DataFrame) (k : Z) : result Row :=
  let n := len df in
  if (n <=? k) || (k <? - n) then Raise IndexError
  else
    match nth_error df (Z.to_nat (if k <? 0 then k + n else k)) with
    | Some r => Ok r
    | None => Raise IndexError
    end.

(** [df.shape[0]]: the number of rows. *)
Definition shape0 (df : DataFrame) : Z := len df.

(** [df.head()]: the first five rows, fewer when the table is shorter. *)
Definition head (df : DataFrame) : DataFrame := firstn 5 df.

End Pandas.
Import Pandas.

(** ** The slider control *)

Module Widgets.

(** The keyword arguments of an [IntSlider(...)] call. *)
Record IntSliderArgs : Type := mkArgs {
  arg_min : Z;
  arg_max : Z;
  arg_description : string;
  arg_continuous_update : bool
}.

(** Modelled from the spec: the [IntSlider] control of the widget library,
    whose code is not part of the repository.  The specification
    describes it as clamping its value to the bounds it was built with
    ("min/max clamping", "boundary clamped by construction"); like the
    library, the model refuses an empty range ([max < min]) with
    [TraitError], and starts from the default value [0] clamped into the
    range. *)
Record IntSlider : Type := mkSlider {
  s_min : Z;
  s_max : Z;
  s_value : Z
}.

Definition clamp (lo hi v : Z) : Z := Z.min (Z.max v lo) hi.

Definition IntSlider_new (a : IntSliderArgs) : result IntSlider :=
  if arg_max a <? arg_min a then Raise TraitError
  else Ok {| s_min := arg_min a; s_max := arg_max a;
             s_value := clamp (arg_min a) (arg_max a) 0 |}.

(** The user drags the slider towards [v]. *)
Definition set_value (s : IntSlider) (v : Z) : IntSlider :=
  {| s_min := s_min s; s_max := s_max s;
     s_value := clamp (s_min s) (s_max s) v |}.

(** The states a slider can be brought to by dragging it, starting from
    the state it was built in. *)
Inductive reachable (s0 : IntSlider) : IntSlider -> Prop :=
| reach_init : reachable s0 s0
| reach_move (s : IntSlider) (v : Z) :
    reachable s0 s -> reachable s0 (set_value s v).

(** Modelled from the spec: the control panel that [interact] of the
    widget library builds for the callback, and the way it drives it: once
    when the panel is created and again, synchronously, whenever a control
    changes.  A boolean default becomes a checkbox; an integer default
    becomes a slider standing at that value, from [-v] to [3 * v] for a
    positive [v]; a slider passed in is used as it is.  An action that
    leaves the value of its control as it was is no change: the callback is
    not invoked for it. *)
Record Controls : Type := mkControls {
  c_show_bio_assembly : bool;
  c_show_surface : bool;
  c_size : IntSlider;
  c_i : IntSlider
}.

Definition slider_of_int (v : Z) : IntSlider :=
  if v =? 0 then {| s_min := 0; s_max := 1; s_value := 0 |}
  else if 0 <? v then {| s_min := - v; s_max := 3 * v; s_value := v |}
  else {| s_min := 3 * v; s_max := - v; s_value := v |}.

Inductive Event : Type :=
| SetAssembly (b : bool)
| SetSurface (b : bool)
| SetSize (z : Z)
| MoveSlider (v : Z).

Definition handle (c : Controls) (e : Event) : Controls :=
  match e with
  | SetAssembly b =>
      {| c_show_bio_assembly := b; c_show_surface := c_show_surface c;
         c_size := c_size c; c_i := c_i c |}
  | SetSurface b =>
      {| c_show_bio_assembly := c_show_bio_assembly c; c_show_surface := b;
         c_size := c_size c; c_i := c_i c |}
  | SetSize z =>
      {| c_show_bio_assembly := c_show_bio_assembly c;
         c_show_surface := c_show_surface c;
         c_size := set_value (c_size c) z; c_i := c_i c |}
  | MoveSlider v =>
      {| c_show_bio_assembly := c_show_bio_assembly c;
         c_show_surface := c_show_surface c; c_size := c_size c;
         c_i := set_value (c_i c) v |}
  end.

(** Whether the action gives its control another value than it had. *)
Definition changes (c : Controls) (e : Event) : bool :=
  match e with
  | SetAssembly b => negb (Bool.eqb b (c_show_bio_assembly c))
  | SetSurface b => negb (Bool.eqb b (c_show_surface c))
  | SetSize z =>
      negb (s_value (set_value (c_size c) z) =? s_value (c_size c))
  | MoveSlider v =>
      negb (s_value (set_value (c_i c) v) =? s_value (c_i c))
  end.

Definition call (f : bool -> bool -> Z -> Z -> IO unit) (c : Controls)
  : IO unit :=
  f (c_show_bio_assembly c) (c_show_surface c) (s_value (c_size c))
    (s_value (c_i c)).

Fixpoint drive (f : bool -> bool -> Z -> Z -> IO unit) (c : Controls)
  (events : list Event) : IO unit :=
  match events with
  | [] => ret tt
  | e :: rest =>
      if changes c e
      then (call f (handle c e) ;; drive f (handle c e) rest)%io
      else drive f c rest
  end.

Definition interact (f : bool -> bool -> Z -> Z -> IO unit)
  (show_bio_assembly show_surface : bool) (size : Z) (i : IntSlider)
  (events : list Event) : IO unit :=
  let c := {| c_show_bio_assembly := show_bio_assembly;
              c_show_surface := show_surface;
              c_size := slider_of_int size; c_i := i |} in
  (call f c ;; drive f c events)%io.

End Widgets.
Import Widgets.

(** ** The notebook's own code *)

Module BrowsePdb.

Section ViewStructure.

(** [def view_structure(df):] the table is fixed for the closures
    below. *)
Variable df : DataFrame.

(** [def view3d(show_bio_assembly, show_surface, size, i):] *)
Definition view3d (show_bio_assembly show_surface : bool) (size i : Z)
  : IO unit :=
  (pdb_id <- lift (rbind (iloc df (i - 1)) (fun row => Ok (idList row))) ;;
   let viewer :=
     view ("pdb:" ++ pdb_id)
          (PyDict [("doAssembly", PyBool show_bio_assembly)])
          size size in
   (* polymer style *)
   let viewer :=
     setStyle
       [PyDict [("cartoon",
                 PyDict [("color", PyStr "spectrum");
                         ("width", PyFloat (6 # 10))])]]
       viewer in
   (* non-polymer style *)
   let viewer :=
     setStyle
       [PyDict [("hetflag", PyBool true)];
        PyDict [("stick",
                 PyDict [("radius", PyFloat (3 # 10));
                         ("singleBond", PyBool false)])]]
       viewer in
   let viewer :=
     if show_surface then
       addSurface
         [PySurf SES;
          PyDict [("opacity", PyFloat (8 # 10));
                  ("color", PyStr "lightblue")];
          PyDict []]
         viewer
     else viewer in
   (* print header *)
   print ["Click and drag mouse to rotate structure: PDB ID"; pdb_id] ;;
   show viewer)%io.

(** The arguments of
    [IntSlider(min=1, max=len(df), description='structure',
               continuous_update=False)]. *)
Definition s_widget_args : IntSliderArgs :=
  {| arg_min := 1; arg_max := len df; arg_description := "structure";
     arg_continuous_update := false |}.

Definition s_widget : result IntSlider := IntSlider_new s_widget_args.

(** The body of [view_structure], run against the [events] the user
    produces on the panel. *)
Definition view_structure (events : list Event) : IO unit :=
  (s <- lift s_widget ;;
   interact view3d false false 750 s events)%io.

End ViewStructure.

(** The cell
    [print("Current number of PDB entries:", pdb_ids.shape[0])]. *)
Definition print_entry_count (pdb_ids : DataFrame) : IO unit :=
  print ["Current number of PDB entries:"; str (shape0 pdb_ids)].

End BrowsePdb.
Import BrowsePdb.

(** ** Vocabulary of the statements *)

Module Obs.

(** The three method calls the callback can make on a viewer. *)
Definition polymer_style : Call :=
  mkCall "setStyle"
    [PyDict [("cartoon",
              PyDict [("color", PyStr "spectrum");
                      ("width", PyFloat (6 # 10))])]].

Definition nonpolymer_style : Call :=
  mkCall "setStyle"
    [PyDict [("hetflag", PyBool true)];
     PyDict [("stick",
              PyDict [("radius", PyFloat (3 # 10));
                      ("singleBond", PyBool false)])]].

Definition surface_overlay : Call :=
  mkCall "addSurface"
    [PySurf SES;
     PyDict [("opacity", PyFloat (8 # 10)); ("color", PyStr "lightblue")];
     PyDict []].

Definition is_style (c : Call) : bool := String.eqb (method c) "setStyle".

(** The identifiers of a table, in fetch order. *)
Definition ids (df : DataFrame) : list string := map idList df.

(** What a structure fetch is keyed by: the query and the options of the
    viewer. *)
Definition fetch_key (v : Viewer) : string * pyval := (query v, options v).

(** A world extended by some text and some displayed viewers. *)
Definition emit (w : World) (text : string) (shown : list Viewer) : World :=
  {| stdout := stdout w ++ text; display := (display w ++ shown)%list |}.

(** [part] occurs in [s]. *)
Definition contains (part s : string) : Prop :=
  exists pre post, s = pre ++ part ++ post.

(** Number of line feeds in a text. *)
Fixpoint newlines (s : string) : nat :=
  match s with
  | EmptyString => O
  | String c rest => ((if Ascii.eqb c LF then 1 else 0) + newlines rest)%nat
  end.

(** The first rows of the table as the notebook shows them. *)
Definition pdb_ids_head : DataFrame :=
  [ mkRow 153836 "100D"; mkRow 153836 "101D"; mkRow 153836 "101M";
    mkRow 153836 "102D"; mkRow 153836 "102L" ].

Definition blank : World := {| stdout := EmptyString; display := [] |}.

(** The line [view3d] prints for an identifier. *)
Definition caption (pdb_id : string) : string :=
  "Click and drag mouse to rotate structure: PDB ID " ++ pdb_id ++ newline.

(** Reading a decimal numeral back, as [int(s)] does for the output of
    [str]. *)
Definition parse_int (s : string) : option Z :=
  option_map Z.of_int (NilZero.int_of_string s).

(** Every identifier of the table is free of line feeds. *)
Definition single_line_ids (df : DataFrame) : Prop :=
  Forall (fun pdb_id => newlines pdb_id = O) (ids df).

(** The viewer is queried by an identifier of the table. *)
Definition shows_id_of (df : DataFrame) (v : Viewer) : Prop :=
  exists pdb_id, In pdb_id (ids df) /\ query v = "pdb:" ++ pdb_id.

(** The panel after a sequence of user actions. *)
Definition after (events : list Event) (c : Controls) : Controls :=
  fold_left handle events c.

(** The slider of the panel has the bounds [view_structure] gave it and
    points at a row. *)
Definition panel_ok (df : DataFrame) (c : Controls) : Prop :=
  s_min (c_i c) = 1 /\ s_max (c_i c) = len df /\
  1 <= s_value (c_i c) <= len df.

(** The panel [view_structure] opens with, given the slider it built. *)
Definition opening (s0 : IntSlider) : Controls :=
  {| c_show_bio_assembly := false; c_show_surface := false;
     c_size := slider_of_int 750; c_i := s0 |}.


(** How many of the actions change a control. *)
Fixpoint effective (c : Controls) (events : list Event) : nat :=
  match events with
  | [] => O
  | e :: rest =>
      ((if changes c e then 1 else 0) + effective (handle c e) rest)%nat
  end.

(** The identifier under the slider of the panel. *)
Definition selected (df : DataFrame) (c : Controls) : option string :=
  nth_error (ids df) (Z.to_nat (s_value (c_i c) - 1)).

(** The viewer for an identifier and the flags and size the panel holds. *)
Definition panel_viewer (pdb_id : string) (c : Controls) : Viewer :=
  {| query := "pdb:" ++ pdb_id;
     options := PyDict [("doAssembly", PyBool (c_show_bio_assembly c))];
     width := s_value (c_size c); height := s_value (c_size c);
     calls := [polymer_style; nonpolymer_style] ++
              (if c_show_surface c then [surface_overlay] else []) |}.

End Obs.
Import Obs.

(** ** Strings *)

Section Strings.

Lemma append_nil_r (s : string) : s ++ EmptyString = s.
Proof. induction s as [|c s IH]; simpl; [reflexivity | now rewrite IH]. Qed.

Lemma append_assoc (a b c : string) : (a ++ b) ++ c = a ++ b ++ c.
Proof. induction a as [|x a IH]; simpl; [reflexivity | now rewrite IH]. Qed.

Lemma newlines_app (a b : string) :
  newlines (a ++ b) = (newlines a + newlines b)%nat.
Proof.
  induction a as [|x a IH]; simpl; [reflexivity |].
  rewrite IH. apply Nat.add_assoc.
Qed.

Lemma append_inv_head (a b c : string) : a ++ b = a ++ c -> b = c.
Proof.
  induction a as [|x a IH]; simpl; intros H; [assumption |].
  injection H as H. auto.
Qed.

End Strings.

(** ** Row lookup *)

Section Iloc.

Variable df : DataFrame.

Lemma len_nonneg : 0 <= len df.
Proof. unfold len. lia. Qed.

Lemma iloc_out_of_bounds (k : Z) :
  len df <= k \/ k < - len df -> iloc df k = Raise IndexError.
Proof.
  intros H. unfold iloc.
  destruct (len df <=? k) eqn:E1; [reflexivity |].
  destruct (k <? - len df) eqn:E2; [reflexivity |]. lia.
Qed.

Lemma iloc_forward (k : Z) :
  0 <= k < len df ->
  exists row, nth_error df (Z.to_nat k) = Some row /\ iloc df k = Ok row.
Proof.
  intros H. unfold iloc.
  replace (len df <=? k) with false by lia.
  replace (k <? - len df) with false by lia.
  replace (k <? 0) with false by lia. simpl.
  destruct (nth_error df (Z.to_nat k)) as [row|] eqn:E.
  - now exists row.
  - apply nth_error_None in E. unfold len in H. lia.
Qed.

Lemma iloc_backward (k : Z) :
  - len df <= k < 0 -> iloc df k = iloc df (k + len df).
Proof.
  intros H. unfold iloc.
  replace (len df <=? k) with false by lia.
  replace (k <? - len df) with false by lia.
  replace (k <? 0) with true by lia.
  replace (len df <=? k + len df) with false by lia.
  replace (k + len df <? - len df) with false by lia.
  replace (k + len df <? 0) with false by lia.
  reflexivity.
Qed.

Lemma iloc_defined (k : Z) :
  - len df <= k < len df -> exists row, iloc df k = Ok row.
Proof.
  intros H. destruct (Z_lt_ge_dec k 0) as [Hneg | Hpos].
  - rewrite iloc_backward by lia.
    destruct (iloc_forward (k + len df)) as [row [_ E]]; [lia |].
    now exists row.
  - destruct (iloc_forward k) as [row [_ E]]; [lia |]. now exists row.
Qed.

Lemma iloc_ids (k : Z) (row : Row) :
  nth_error df (Z.to_nat k) = Some row ->
  nth_error (ids df) (Z.to_nat k) = Some (idList row).
Proof. intros H. unfold ids. now apply map_nth_error. Qed.

End Iloc.

(** ** One invocation of the callback *)

Section Run.

Variable df : DataFrame.

(** The viewer the callback shows for a looked-up identifier. *)
Lemma view3d_run (a s : bool) (size i : Z) (w : World) :
  view3d df a s size i w =
  match iloc df (i - 1) with
  | Raise e => (Raise e, w)
  | Ok row =>
      (Ok tt,
       emit w
         ("Click and drag mouse to rotate structure: PDB ID " ++
          idList row ++ newline)
         [ {| query := "pdb:" ++ idList row;
              options := PyDict [("doAssembly", PyBool a)];
              width := size; height := size;
              calls := [polymer_style; nonpolymer_style] ++
                       (if s then [surface_overlay] else []) |} ])
  end.
Proof.
  unfold view3d, bind, lift, rbind.
  destruct (iloc df (i - 1)) as [row | e]; [| reflexivity].
  destruct s; reflexivity.
Qed.

Lemma view3d_raises (a s : bool) (size i : Z) (w : World) :
  len df < i \/ i < 1 - len df ->
  view3d df a s size i w = (Raise IndexError, w).
Proof.
  intros H. rewrite view3d_run, iloc_out_of_bounds by lia. reflexivity.
Qed.

End Run.

(** ** Selection of the identifier *)

(** C1: for a table of [N] rows and an index [1 <= i <= N], the callback
    selects the identifier at position [i - 1] of the table in fetch order:
    that identifier is the one in the viewer's query and in the caption. *)
Theorem view3d_selects_ith
  (df : DataFrame) (a s : bool) (size i : Z) (w : World) :
  1 <= i <= len df ->
  exists pdb_id v,
    nth_error (ids df) (Z.to_nat (i - 1)) = Some pdb_id /\
    view3d df a s size i w =
      (Ok tt,
       emit w ("Click and drag mouse to rotate structure: PDB ID " ++
               pdb_id ++ newline) [v]) /\
    query v = "pdb:" ++ pdb_id.
Proof.
  intros Hi.
  destruct (iloc_forward df (i - 1)) as [row [Hnth Hrow]]; [lia |].
  rewrite view3d_run, Hrow.
  eexists; eexists; split; [apply iloc_ids; eassumption |].
  split; reflexivity.
Qed.

Lemma view3d_selects_ith_witness :
  exists pdb_id v,
    nth_error (ids pdb_ids_head) (Z.to_nat (2 - 1)) = Some pdb_id /\
    view3d pdb_ids_head false true 750 2 blank =
      (Ok tt,
       emit blank ("Click and drag mouse to rotate structure: PDB ID " ++
                   pdb_id ++ newline) [v]) /\
    query v = "pdb:" ++ pdb_id.
Proof.
  apply (view3d_selects_ith pdb_ids_head false true 750 2 blank).
  vm_compute. split; discriminate.
Defined.

(** C7: on a table whose identifiers are 100D, 101D, 101M, 102D, 102L,
    index 3 puts 101M in the caption. *)
Theorem view3d_third_of_five
  (df : DataFrame) (a s : bool) (size : Z) (w : World) :
  ids df = ["100D"; "101D"; "101M"; "102D"; "102L"] ->
  exists shown,
    view3d df a s size 3 w =
      (Ok tt,
       emit w ("Click and drag mouse to rotate structure: PDB ID 101M" ++ newline)
             shown).
Proof.
  intros Hids.
  destruct df as [|r0 [|r1 [|r2 [|r3 [|r4 [|r5 df]]]]]]; try discriminate Hids.
  injection Hids as _ _ H2 _ _.
  rewrite view3d_run.
  change (iloc [r0; r1; r2; r3; r4] (3 - 1)) with (Ok r2 : result Row).
  cbv beta iota. rewrite H2. eexists. reflexivity.
Qed.

Lemma view3d_third_of_five_witness :
  exists shown,
    view3d pdb_ids_head true false 750 3 blank =
      (Ok tt,
       emit blank ("Click and drag mouse to rotate structure: PDB ID 101M" ++ newline)
             shown).
Proof.
  apply (view3d_third_of_five pdb_ids_head true false 750 blank).
  reflexivity.
Defined.

(** C10: on a non-empty table of [N] rows, index 0 does not raise: the
    lookup at position [-1] counts from the end, so the callback does
    exactly what it does for index [N] and selects the last identifier. *)
Theorem view3d_index_zero_is_last
  (df : DataFrame) (a s : bool) (size : Z) (w : World) :
  df <> [] ->
  view3d df a s size 0 w = view3d df a s size (len df) w /\
  exists pdb_id v,
    nth_error (ids df) (Nat.pred (List.length df)) = Some pdb_id /\
    view3d df a s size 0 w =
      (Ok tt,
       emit w ("Click and drag mouse to rotate structure: PDB ID " ++
               pdb_id ++ newline) [v]) /\
    query v = "pdb:" ++ pdb_id.
Proof.
  intros Hne.
  assert (Hlen : 1 <= len df).
  { unfold len. destruct df; [congruence | simpl List.length; lia]. }
  assert (E : iloc df (0 - 1) = iloc df (len df - 1)).
  { rewrite iloc_backward by lia. f_equal. lia. }
  split.
  - rewrite !view3d_run, E. reflexivity.
  - destruct (iloc_forward df (len df - 1)) as [row [Hnth Hrow]]; [lia |].
    rewrite view3d_run, E, Hrow.
    replace (Z.to_nat (len df - 1)) with (Nat.pred (List.length df)) in Hnth
      by (unfold len; lia).
    eexists; eexists; split; [unfold ids; apply map_nth_error; eassumption |].
    split; reflexivity.
Qed.

Lemma view3d_index_zero_is_last_witness :
  view3d pdb_ids_head false false 750 0 blank =
    view3d pdb_ids_head false false 750 (len pdb_ids_head) blank /\
  exists pdb_id v,
    nth_error (ids pdb_ids_head) (Nat.pred (List.length pdb_ids_head))
      = Some pdb_id /\
    view3d pdb_ids_head false false 750 0 blank =
      (Ok tt,
       emit blank ("Click and drag mouse to rotate structure: PDB ID " ++
                   pdb_id ++ newline) [v]) /\
    query v = "pdb:" ++ pdb_id.
Proof.
  apply (view3d_index_zero_is_last pdb_ids_head false false 750 blank).
  discriminate.
Defined.

(** C9: with an empty table the slider is asked for the range from 1 to 0,
    which holds no value, and every invocation of the callback, whatever its
    arguments, raises [IndexError] at the row lookup without emitting
    anything. *)
Theorem empty_table_no_invocation :
  arg_min (s_widget_args []) = 1 /\
  arg_max (s_widget_args []) = 0 /\
  (forall v, ~ (arg_min (s_widget_args []) <= v <= arg_max (s_widget_args []))) /\
  (forall (a s : bool) (size i : Z) (w : World),
     view3d [] a s size i w = (Raise IndexError, w)).
Proof.
  split; [reflexivity |]. split; [reflexivity |]. split.
  - intros v. cbn. lia.
  - intros a s size i w. apply view3d_raises. cbn. lia.
Qed.

(** ** Rendering directives *)

Section Directives.

Variable df : DataFrame.

(** Whenever the row lookup succeeds the callback shows one viewer, whose
    calls are the two styles followed by the overlay if it was asked
    for. *)
Lemma view3d_shows (a s : bool) (size i : Z) (w : World) :
  1 - len df <= i <= len df ->
  exists pdb_id,
    view3d df a s size i w =
      (Ok tt,
       emit w ("Click and drag mouse to rotate structure: PDB ID " ++
               pdb_id ++ newline)
         [ {| query := "pdb:" ++ pdb_id;
              options := PyDict [("doAssembly", PyBool a)];
              width := size; height := size;
              calls := [polymer_style; nonpolymer_style] ++
                       (if s then [surface_overlay] else []) |} ]).
Proof.
  intros Hi. destruct (iloc_defined df (i - 1)) as [row Hrow]; [lia |].
  exists (idList row). rewrite view3d_run, Hrow. reflexivity.
Qed.

End Directives.

(** C2, as stated, fails: past the end of the table (index 6 of 5) the
    callback raises before any directive is issued, with the surface flag
    off and with it on, so switching it on adds nothing. *)
Lemma surface_toggle_past_the_end :
  view3d pdb_ids_head false false 750 6 blank = (Raise IndexError, blank) /\
  view3d pdb_ids_head false true 750 6 blank = (Raise IndexError, blank) /\
  ~ (exists vF vT,
       display (snd (view3d pdb_ids_head false false 750 6 blank)) = [vF] /\
       display (snd (view3d pdb_ids_head false true 750 6 blank)) = [vT] /\
       List.length (calls vT) = S (List.length (calls vF))).
Proof.
  split; [reflexivity |]. split; [reflexivity |].
  intros [vF [vT [H _]]]. discriminate H.
Qed.

(** C2, amended: for every table, assembly flag and size, and every index at
    which the row lookup succeeds ([1 - N <= i <= N]), switching only the
    surface flag on adds exactly one call, the surface overlay, after the
    two style calls, which stay exactly as they are with the flag off;
    caption, query, options and canvas size are untouched. *)
Theorem surface_toggle_adds_overlay
  (df : DataFrame) (a : bool) (size i : Z) (w : World) :
  1 - len df <= i <= len df ->
  exists vF vT text,
    view3d df a false size i w = (Ok tt, emit w text [vF]) /\
    view3d df a true size i w = (Ok tt, emit w text [vT]) /\
    calls vT = (calls vF ++ [surface_overlay])%list /\
    List.length (calls vT) = S (List.length (calls vF)) /\
    calls vF = [polymer_style; nonpolymer_style] /\
    filter is_style (calls vT) = filter is_style (calls vF) /\
    filter is_style (calls vF) = [polymer_style; nonpolymer_style] /\
    (query vT, options vT, width vT, height vT) =
    (query vF, options vF, width vF, height vF).
Proof.
  intros Hi.
  destruct (iloc_defined df (i - 1)) as [row Hrow]; [lia |].
  rewrite !view3d_run, Hrow.
  eexists; eexists; eexists.
  split; [reflexivity |]. split; [reflexivity |].
  repeat split.
Qed.

Lemma surface_toggle_adds_overlay_witness :
  exists vF vT text,
    view3d pdb_ids_head true false 600 5 blank = (Ok tt, emit blank text [vF]) /\
    view3d pdb_ids_head true true 600 5 blank = (Ok tt, emit blank text [vT]) /\
    calls vT = (calls vF ++ [surface_overlay])%list /\
    List.length (calls vT) = S (List.length (calls vF)) /\
    calls vF = [polymer_style; nonpolymer_style] /\
    filter is_style (calls vT) = filter is_style (calls vF) /\
    filter is_style (calls vF) = [polymer_style; nonpolymer_style] /\
    (query vT, options vT, width vT, height vT) =
    (query vF, options vF, width vF, height vF).
Proof.
  apply (surface_toggle_adds_overlay pdb_ids_head true 600 5 blank).
  vm_compute. split; discriminate.
Defined.

(** C5, as stated, fails: at an index past the end of the table (7 of 5)
    the invocation raises before it gets as far as the style calls, and
    shows no viewer at all. *)
Lemma no_styles_past_the_end :
  view3d pdb_ids_head true true 750 7 blank = (Raise IndexError, blank) /\
  ~ (exists v,
       In v (display (snd (view3d pdb_ids_head true true 750 7 blank))) /\
       filter is_style (calls v) = [polymer_style; nonpolymer_style]).
Proof.
  split; [reflexivity |].
  intros [v [H _]]. exact H.
Qed.

(** C5, amended: for every input at which the row lookup succeeds
    ([1 - N <= i <= N]) the viewer shown has exactly two style calls, issued
    first and in this order: the cartoon style coloured by spectrum and the
    stick style for hetero-flagged residues.  Both are the same for every
    table and every value of the four parameters. *)
Theorem view3d_two_fixed_styles
  (df : DataFrame) (a s : bool) (size i : Z) (w : World) :
  1 - len df <= i <= len df ->
  exists v text,
    view3d df a s size i w = (Ok tt, emit w text [v]) /\
    filter is_style (calls v) = [polymer_style; nonpolymer_style] /\
    firstn 2 (calls v) = [polymer_style; nonpolymer_style] /\
    skipn 2 (calls v) = (if s then [surface_overlay] else []).
Proof.
  intros Hi. destruct (view3d_shows df a s size i w Hi) as [id Hrun].
  eexists; eexists. split; [exact Hrun |].
  destruct s; repeat split.
Qed.

Lemma view3d_two_fixed_styles_witness :
  exists v text,
    view3d pdb_ids_head false true 300 (-4) blank =
      (Ok tt, emit blank text [v]) /\
    filter is_style (calls v) = [polymer_style; nonpolymer_style] /\
    firstn 2 (calls v) = [polymer_style; nonpolymer_style] /\
    skipn 2 (calls v) = [surface_overlay].
Proof.
  apply (view3d_two_fixed_styles pdb_ids_head false true 300 (-4) blank).
  vm_compute. split; discriminate.
Defined.

(** ** The fetch request and the caption *)

(** C6: for a valid index the fetch is keyed by the query ['pdb:'] followed
    by the selected identifier and by the option [doAssembly] set to the
    assembly flag; the surface flag and the size have no influence on the
    key, nor has the world the callback runs in. *)
Theorem fetch_keyed_by_id_and_assembly
  (df : DataFrame) (a s : bool) (size i : Z) (w : World) :
  1 <= i <= len df ->
  exists pdb_id v text,
    nth_error (ids df) (Z.to_nat (i - 1)) = Some pdb_id /\
    view3d df a s size i w = (Ok tt, emit w text [v]) /\
    fetch_key v = ("pdb:" ++ pdb_id, PyDict [("doAssembly", PyBool a)]) /\
    forall (s' : bool) (size' : Z) (w' : World),
    exists v' text',
      view3d df a s' size' i w' = (Ok tt, emit w' text' [v']) /\
      fetch_key v' = fetch_key v.
Proof.
  intros Hi.
  destruct (iloc_forward df (i - 1)) as [row [Hnth Hrow]]; [lia |].
  exists (idList row). eexists; eexists.
  split; [apply iloc_ids; exact Hnth |].
  split; [rewrite view3d_run, Hrow; reflexivity |].
  split; [reflexivity |].
  intros s' size' w'. eexists; eexists.
  split; [rewrite view3d_run, Hrow; reflexivity | reflexivity].
Qed.

Lemma fetch_keyed_by_id_and_assembly_witness :
  exists pdb_id v text,
    nth_error (ids pdb_ids_head) (Z.to_nat (4 - 1)) = Some pdb_id /\
    view3d pdb_ids_head true false 750 4 blank = (Ok tt, emit blank text [v]) /\
    fetch_key v = ("pdb:" ++ pdb_id, PyDict [("doAssembly", PyBool true)]) /\
    forall (s' : bool) (size' : Z) (w' : World),
    exists v' text',
      view3d pdb_ids_head true s' size' 4 w' = (Ok tt, emit w' text' [v']) /\
      fetch_key v' = fetch_key v.
Proof.
  apply (fetch_keyed_by_id_and_assembly pdb_ids_head true false 750 4 blank).
  vm_compute. split; discriminate.
Defined.

(** C8: for a valid index, and an identifier that holds no line feed (as
    every accession code does), the callback appends to the text stream
    exactly one line, ended by the only line feed it writes, and the
    selected identifier occurs in that line. *)
Theorem caption_is_one_line
  (df : DataFrame) (a s : bool) (size i : Z) (w : World) :
  1 <= i <= len df ->
  (forall id, nth_error (ids df) (Z.to_nat (i - 1)) = Some id ->
              newlines id = O) ->
  exists pdb_id line shown,
    nth_error (ids df) (Z.to_nat (i - 1)) = Some pdb_id /\
    view3d df a s size i w = (Ok tt, emit w (line ++ newline) shown) /\
    newlines line = O /\
    newlines (line ++ newline) = 1%nat /\
    contains pdb_id line.
Proof.
  intros Hi Hwf.
  destruct (iloc_forward df (i - 1)) as [row [Hnth Hrow]]; [lia |].
  apply iloc_ids in Hnth. specialize (Hwf _ Hnth).
  exists (idList row).
  exists ("Click and drag mouse to rotate structure: PDB ID " ++ idList row).
  eexists. split; [exact Hnth |].
  split.
  { rewrite view3d_run, Hrow, append_assoc. reflexivity. }
  assert (Hline : newlines ("Click and drag mouse to rotate structure: PDB ID "
                            ++ idList row) = O).
  { rewrite newlines_app, Hwf. reflexivity. }
  split; [exact Hline |].
  split; [rewrite newlines_app, Hline; reflexivity |].
  exists "Click and drag mouse to rotate structure: PDB ID ", EmptyString.
  now rewrite append_nil_r.
Qed.

Lemma caption_is_one_line_witness :
  exists pdb_id line shown,
    nth_error (ids pdb_ids_head) (Z.to_nat (1 - 1)) = Some pdb_id /\
    view3d pdb_ids_head false false 750 1 blank =
      (Ok tt, emit blank (line ++ newline) shown) /\
    newlines line = O /\
    newlines (line ++ newline) = 1%nat /\
    contains pdb_id line.
Proof.
  apply (caption_is_one_line pdb_ids_head false false 750 1 blank).
  - vm_compute. split; discriminate.
  - intros id H. vm_compute in H. injection H as <-. reflexivity.
Defined.

(** ** No memory between invocations *)

(** C3: the outcome of an invocation, the text it appends and the viewers it
    shows are determined by the table and the four parameters alone: they
    are the same in every world, so in particular when the same selection is
    made again.  On success the text is the caption of the selected
    identifier and the one viewer shown is queried by it. *)
Theorem view3d_is_pure (df : DataFrame) (a s : bool) (size i : Z) :
  exists (outcome : result unit) (text : string) (shown : list Viewer),
    (forall w, view3d df a s size i w = (outcome, emit w text shown)) /\
    match outcome with
    | Ok _ =>
        exists row v,
          iloc df (i - 1) = Ok row /\
          text = "Click and drag mouse to rotate structure: PDB ID " ++
                 idList row ++ newline /\
          shown = [v] /\ query v = "pdb:" ++ idList row
    | Raise _ => text = EmptyString /\ shown = []
    end.
Proof.
  destruct (iloc df (i - 1)) as [row | e] eqn:Hrow.
  - eexists; eexists; eexists. split.
    + intros w. rewrite view3d_run, Hrow. reflexivity.
    + eexists; eexists. repeat split.
  - exists (Raise e), EmptyString, []. split; [| split; reflexivity].
    intros w. rewrite view3d_run, Hrow. unfold emit.
    rewrite append_nil_r, app_nil_r. destruct w; reflexivity.
Qed.

(** ** The slider and the panel *)

Section Slider.

Lemma clamp_bounds (lo hi v : Z) : lo <= hi -> lo <= clamp lo hi v <= hi.
Proof. unfold clamp. lia. Qed.

Lemma IntSlider_new_inv (args : IntSliderArgs) (s : IntSlider) :
  IntSlider_new args = Ok s ->
  s_min s = arg_min args /\ s_max s = arg_max args /\
  arg_min args <= s_value s <= arg_max args.
Proof.
  unfold IntSlider_new. destruct (arg_max args <? arg_min args) eqn:E;
    [discriminate |].
  intros H. injection H as <-. cbn.
  split; [reflexivity |]. split; [reflexivity |].
  apply clamp_bounds. lia.
Qed.

(** The bounds never move and the value stays between them. *)
Lemma reachable_inv (s0 s : IntSlider) :
  s_min s0 <= s_value s0 <= s_max s0 ->
  reachable s0 s ->
  s_min s = s_min s0 /\ s_max s = s_max s0 /\
  s_min s0 <= s_value s <= s_max s0.
Proof.
  intros H0 Hr. induction Hr as [| s v Hr [Hmin [Hmax Hv]]].
  - auto.
  - cbn. rewrite Hmin, Hmax.
    split; [reflexivity |]. split; [reflexivity |].
    apply clamp_bounds. lia.
Qed.

(** The slider cannot be built for an empty table. *)
Lemma s_widget_empty : s_widget [] = Raise TraitError.
Proof. reflexivity. Qed.

Lemma s_widget_nonempty (df : DataFrame) :
  df <> [] -> exists s0, s_widget df = Ok s0 /\ s_value s0 = 1.
Proof.
  intros Hne. unfold s_widget, IntSlider_new, s_widget_args; cbn.
  assert (1 <= len df).
  { unfold len. destruct df; [congruence | simpl List.length; lia]. }
  replace (len df <? 1) with false by lia.
  eexists. split; [reflexivity |]. cbn. unfold clamp. lia.
Qed.

End Slider.

(** C4: for a table of [N] rows, every value the slider built by
    [view_structure] can be brought to lies between 1 and [N]; neither 0 nor
    [N + 1] is among them. *)
Theorem slider_index_within_bounds (df : DataFrame) (s0 s : IntSlider) :
  s_widget df = Ok s0 ->
  reachable s0 s ->
  1 <= s_value s <= len df /\ s_value s <> 0 /\ s_value s <> len df + 1.
Proof.
  intros Hnew Hr.
  apply IntSlider_new_inv in Hnew. cbn in Hnew.
  destruct Hnew as [Hmin [Hmax Hv]].
  destruct (reachable_inv s0 s) as [_ [_ H]]; [lia | exact Hr |].
  lia.
Qed.

Lemma slider_index_within_bounds_witness :
  1 <= s_value (set_value (set_value (mkSlider 1 5 1) 9) 0)
    <= len pdb_ids_head /\
  s_value (set_value (set_value (mkSlider 1 5 1) 9) 0) <> 0 /\
  s_value (set_value (set_value (mkSlider 1 5 1) 9) 0)
    <> len pdb_ids_head + 1.
Proof.
  apply (slider_index_within_bounds pdb_ids_head (mkSlider 1 5 1)).
  - reflexivity.
  - apply reach_move, reach_move, reach_init.
Defined.

(** ** Sessions *)

(** On an empty table the panel is never built. *)
Lemma view_structure_empty (events : list Event) (w : World) :
  view_structure [] events w = (Raise TraitError, w).
Proof. reflexivity. Qed.

(** ** Further properties of the callback *)

Section Worlds.

Lemma emit_emit (w : World) (t1 t2 : string) (s1 s2 : list Viewer) :
  emit (emit w t1 s1) t2 s2 = emit w (t1 ++ t2) (s1 ++ s2)%list.
Proof. unfold emit; cbn. now rewrite append_assoc, app_assoc. Qed.

Lemma emit_nothing (w : World) : emit w EmptyString [] = w.
Proof.
  unfold emit. rewrite append_nil_r, app_nil_r. now destruct w.
Qed.

Lemma emit_inv (w : World) (t1 t2 : string) (s1 s2 : list Viewer) :
  emit w t1 s1 = emit w t2 s2 -> t1 = t2 /\ s1 = s2.
Proof.
  unfold emit. intros H. injection H as Ht Hs. split.
  - eapply append_inv_head; eassumption.
  - eapply app_inv_head; eassumption.
Qed.

Lemma append_inv_newline (x y : string) :
  x ++ newline = y ++ newline -> x = y.
Proof.
  revert y. induction x as [|c x IH]; destruct y as [|d y]; simpl; intros H.
  - reflexivity.
  - destruct y; discriminate H.
  - destruct x; discriminate H.
  - injection H as -> H. f_equal. auto.
Qed.

Lemma caption_inj (id1 id2 : string) : caption id1 = caption id2 -> id1 = id2.
Proof.
  unfold caption. intros H.
  apply append_inv_head in H. now apply append_inv_newline.
Qed.

End Worlds.

(** X1: an invocation raises exactly when the index lies outside
    [1 - N .. N]; what it raises is [IndexError], and it does so before
    printing or showing anything.  Inside that range it completes. *)
Theorem view3d_raises_iff
  (df : DataFrame) (a s : bool) (size i : Z) (w : World) :
  (view3d df a s size i w = (Raise IndexError, w) <->
   i < 1 - len df \/ len df < i) /\
  (fst (view3d df a s size i w) = Ok tt <-> 1 - len df <= i <= len df) /\
  (forall e, fst (view3d df a s size i w) = Raise e ->
             e = IndexError /\ snd (view3d df a s size i w) = w).
Proof.
  destruct (Z_lt_ge_dec i (1 - len df)) as [Hlo | Hlo];
    [| destruct (Z_lt_ge_dec (len df) i) as [Hhi | Hhi]].
  1, 2: rewrite view3d_raises by lia;
    (split; [split; [intros _; lia | reflexivity] |]);
    (split; [split; [discriminate | lia] |]);
    cbn; intros e [= <-]; split; reflexivity.
  destruct (view3d_shows df a s size i w) as [id E]; [lia |].
  rewrite E. split; [split; [discriminate | lia] |].
  split; [split; [lia | reflexivity] |].
  cbn. discriminate.
Qed.

(** X2: an index from [1 - N] to [0] is taken from the end of the table:
    the invocation is the one of index [i + N], which is a valid index. *)
Theorem view3d_nonpositive_index_wraps
  (df : DataFrame) (a s : bool) (size i : Z) (w : World) :
  1 - len df <= i <= 0 ->
  view3d df a s size i w = view3d df a s size (i + len df) w /\
  1 <= i + len df <= len df.
Proof.
  intros Hi. split; [| lia].
  rewrite !view3d_run, (iloc_backward df (i - 1)) by lia.
  replace (i - 1 + len df) with (i + len df - 1) by lia. reflexivity.
Qed.

Lemma view3d_nonpositive_index_wraps_witness :
  view3d pdb_ids_head true true 750 (-2) blank =
    view3d pdb_ids_head true true 750 (-2 + len pdb_ids_head) blank /\
  1 <= -2 + len pdb_ids_head <= len pdb_ids_head.
Proof.
  apply (view3d_nonpositive_index_wraps pdb_ids_head true true 750 (-2) blank).
  vm_compute. split; discriminate.
Defined.

(** X3: the canvas is a square whose side is the size argument, passed on
    unchecked; the assembly flag ends up in the viewer's options only.
    Neither of the two changes the caption, the query or the calls made on
    the viewer. *)
Theorem view3d_size_and_assembly_frame
  (df : DataFrame) (a a' s : bool) (size size' i : Z) (w : World) :
  1 - len df <= i <= len df ->
  exists v v' text,
    view3d df a s size i w = (Ok tt, emit w text [v]) /\
    view3d df a' s size' i w = (Ok tt, emit w text [v']) /\
    width v = size /\ height v = size /\
    width v' = size' /\ height v' = size' /\
    options v = PyDict [("doAssembly", PyBool a)] /\
    options v' = PyDict [("doAssembly", PyBool a')] /\
    query v' = query v /\ calls v' = calls v.
Proof.
  intros Hi. destruct (iloc_defined df (i - 1)) as [row Hrow]; [lia |].
  rewrite !view3d_run, Hrow.
  eexists; eexists; eexists.
  split; [reflexivity |]. split; [reflexivity |]. repeat split.
Qed.

Lemma view3d_size_and_assembly_frame_witness :
  exists v v' text,
    view3d pdb_ids_head false true 750 2 blank = (Ok tt, emit blank text [v]) /\
    view3d pdb_ids_head true true (-10) 2 blank =
      (Ok tt, emit blank text [v']) /\
    width v = 750 /\ height v = 750 /\
    width v' = -10 /\ height v' = -10 /\
    options v = PyDict [("doAssembly", PyBool false)] /\
    options v' = PyDict [("doAssembly", PyBool true)] /\
    query v' = query v /\ calls v' = calls v.
Proof.
  apply (view3d_size_and_assembly_frame
           pdb_ids_head false true true 750 (-10) 2 blank).
  vm_compute. split; discriminate.
Defined.

(** X4: the caption tells which structure is fetched: two invocations, on
    any tables and with any arguments, that print the same text show
    viewers with the same query. *)
Theorem same_caption_same_query
  (df df' : DataFrame) (a a' s s' : bool) (size size' i j : Z)
  (w w' : World) (text : string) (v v' : Viewer) :
  view3d df a s size i w = (Ok tt, emit w text [v]) ->
  view3d df' a' s' size' j w' = (Ok tt, emit w' text [v']) ->
  query v = query v'.
Proof.
  rewrite !view3d_run.
  destruct (iloc df (i - 1)) as [row | e]; [| discriminate].
  destruct (iloc df' (j - 1)) as [row' | e']; [| discriminate].
  intros H H'.
  apply (f_equal snd) in H, H'. cbn [snd] in H, H'.
  apply emit_inv in H, H'.
  destruct H as [Ht Hv], H' as [Ht' Hv'].
  injection Hv as <-. injection Hv' as <-. cbn.
  assert (E : idList row = idList row').
  { apply caption_inj. unfold caption. congruence. }
  now rewrite E.
Qed.

Lemma same_caption_same_query_witness :
  view3d pdb_ids_head false false 750 2 blank =
    (Ok tt,
     emit blank (caption "101D")
       [ {| query := "pdb:101D";
            options := PyDict [("doAssembly", PyBool false)];
            width := 750; height := 750;
            calls := [polymer_style; nonpolymer_style] |} ]) /\
  view3d [mkRow 7 "101M"; mkRow 7 "101D"] true true 300 0 blank =
    (Ok tt,
     emit blank (caption "101D")
       [ {| query := "pdb:101D";
            options := PyDict [("doAssembly", PyBool true)];
            width := 300; height := 300;
            calls := [polymer_style; nonpolymer_style; surface_overlay] |} ])
  /\
  query
    {| query := "pdb:101D";
       options := PyDict [("doAssembly", PyBool false)];
       width := 750; height := 750;
       calls := [polymer_style; nonpolymer_style] |} =
  query
    {| query := "pdb:101D";
       options := PyDict [("doAssembly", PyBool true)];
       width := 300; height := 300;
       calls := [polymer_style; nonpolymer_style; surface_overlay] |}.
Proof.
  split; [reflexivity |]. split; [reflexivity |].
  apply (same_caption_same_query
           pdb_ids_head [mkRow 7 "101M"; mkRow 7 "101D"]
           false true false true 750 300 2 0 blank blank (caption "101D")).
  - reflexivity.
  - reflexivity.
Defined.

(** ** Whole sessions *)

Section Sessions.

Variable df : DataFrame.

Lemma set_value_same (s : IntSlider) (v : Z) :
  s_value (set_value s v) = s_value s -> set_value s v = s.
Proof.
  destruct s as [lo hi x]. unfold set_value. cbn [s_min s_max s_value].
  intros ->. reflexivity.
Qed.

(** An action that changes no control leaves the panel as it was. *)
Lemma changes_false (c : Controls) (e : Event) :
  changes c e = false -> handle c e = c.
Proof.
  destruct c as [a s size i]; destruct e as [b | b | z | v];
    unfold changes, handle;
    cbn [c_show_bio_assembly c_show_surface c_size c_i];
    intros H; apply negb_false_iff in H.
  - apply Bool.eqb_prop in H. now subst.
  - apply Bool.eqb_prop in H. now subst.
  - apply Z.eqb_eq in H. now rewrite (set_value_same size z H).
  - apply Z.eqb_eq in H. now rewrite (set_value_same i v H).
Qed.

Lemma handle_panel_ok (c : Controls) (e : Event) :
  panel_ok df c -> panel_ok df (handle c e).
Proof.
  unfold panel_ok. intros [Hmin [Hmax Hv]].
  destruct e; cbn; rewrite ?Hmin, ?Hmax; repeat split; try lia.
  all: unfold clamp; lia.
Qed.




Lemma effective_le (events : list Event) :
  forall c, (effective c events <= List.length events)%nat.
Proof.
  induction events as [| e rest IH]; intros c; cbn; [lia |].
  specialize (IH (handle c e)). destruct (changes c e); lia.
Qed.

Lemma selected_In (c : Controls) (pdb_id : string) :
  selected df c = Some pdb_id -> In pdb_id (ids df).
Proof. apply nth_error_In. Qed.

Lemma panel_viewer_shows (c : Controls) (pdb_id : string) :
  selected df c = Some pdb_id -> shows_id_of df (panel_viewer pdb_id c).
Proof.
  intros H. exists pdb_id. split; [now apply (selected_In c) | reflexivity].
Qed.

(** One call from the panel shows the viewer of the panel. *)
Lemma call_view3d_run (c : Controls) (w : World) :
  panel_ok df c ->
  exists pdb_id,
    selected df c = Some pdb_id /\
    call (view3d df) c w =
      (Ok tt, emit w (caption pdb_id) [panel_viewer pdb_id c]).
Proof.
  intros [_ [_ H]]. unfold call, selected.
  destruct (iloc_forward df (s_value (c_i c) - 1)) as [row [Hnth Hrow]];
    [lia |].
  rewrite view3d_run, Hrow.
  exists (idList row). split; [apply iloc_ids; exact Hnth | reflexivity].
Qed.

Lemma newlines_caption (pdb_id : string) :
  newlines pdb_id = O -> newlines (caption pdb_id) = 1%nat.
Proof.
  intros H. unfold caption. rewrite !newlines_app, H. reflexivity.
Qed.

Lemma single_line_In (pdb_id : string) :
  single_line_ids df -> In pdb_id (ids df) -> newlines pdb_id = O.
Proof.
  unfold single_line_ids. rewrite Forall_forall. auto.
Qed.

Lemma last_cons {A : Type} (a d : A) (l : list A) :
  last (a :: l) d = last l a.
Proof.
  revert a d. induction l as [| b l IH]; intros a d; [reflexivity |].
  change (last (a :: b :: l) d) with (last (b :: l) d).
  now rewrite (IH b d), (IH b a).
Qed.

(** The invariant of a session: whatever was shown last is the viewer of
    the panel as it stands. *)
Lemma drive_follows (events : list Event) :
  forall (c : Controls) (w : World),
    panel_ok df c ->
    exists text more,
      drive (view3d df) c events w = (Ok tt, emit w text more) /\
      List.length more = effective c events /\
      Forall (shows_id_of df) more /\
      (single_line_ids df -> newlines text = List.length more) /\
      (forall pdb_id,
         selected df c = Some pdb_id ->
         exists pdb_id',
           selected df (after events c) = Some pdb_id' /\
           last more (panel_viewer pdb_id c)
             = panel_viewer pdb_id' (after events c)).
Proof.
  induction events as [| e rest IH]; intros c w Hc; cbn [drive effective].
  - exists EmptyString, []. unfold ret. rewrite emit_nothing.
    repeat split; [constructor |].
    intros id Hid. exists id. split; [exact Hid | reflexivity].
  - destruct (changes c e) eqn:Hch.
    + pose proof (handle_panel_ok c e Hc) as Hc'.
      destruct (call_view3d_run (handle c e) w Hc') as [id1 [Hid1 E]].
      destruct (IH (handle c e) (emit w (caption id1)
                                   [panel_viewer id1 (handle c e)]) Hc')
        as [text [more [Erest [Hlen [Hall [Hlines Hlast]]]]]].
      exists (caption id1 ++ text), (panel_viewer id1 (handle c e) :: more).
      unfold bind. rewrite E, Erest, emit_emit.
      split; [reflexivity |]. split; [cbn; now rewrite Hlen |].
      split; [constructor; [now apply panel_viewer_shows | exact Hall] |].
      split.
      * intros Hsl. rewrite newlines_app, (Hlines Hsl), newlines_caption;
          [reflexivity |].
        apply single_line_In; [exact Hsl | now apply (selected_In (handle c e))].
      * intros id _. destruct (Hlast id1 Hid1) as [id' [Hsel' Hl]].
        exists id'. split; [exact Hsel' |]. rewrite last_cons. exact Hl.
    + pose proof (changes_false c e Hch) as Hsame.
      destruct (IH c w Hc) as [text [more [Erest [Hlen [Hall [Hlines Hlast]]]]]].
      exists text, more. rewrite Hsame.
      split; [exact Erest |]. split; [exact Hlen |].
      split; [exact Hall |]. split; [exact Hlines |].
      intros id Hid. unfold after. cbn [fold_left]. rewrite Hsame.
      apply Hlast, Hid.
Qed.

Lemma s_widget_panel_ok (s0 : IntSlider) :
  s_widget df = Ok s0 -> panel_ok df (opening s0).
Proof.
  intros E. apply IntSlider_new_inv in E. cbn in E.
  unfold panel_ok; cbn. tauto.
Qed.


Lemma bind_ext {A B : Type} (m : IO A) (k k' : A -> IO B) (w : World) :
  (forall x w1, k x w1 = k' x w1) -> bind m k w = bind m k' w.
Proof.
  intros H. unfold bind. destruct (m w) as [[x | e] w1]; [apply H | reflexivity].
Qed.

Lemma view_structure_unfold (s0 : IntSlider) (events : list Event) (w : World) :
  s_widget df = Ok s0 ->
  view_structure df events w =
  bind (call (view3d df) (opening s0))
       (fun _ => drive (view3d df) (opening s0) events) w.
Proof.
  intros E. unfold view_structure, bind at 1, lift. rewrite E. reflexivity.
Qed.



(** A whole session: it completes, and its last viewer is the one of the
    panel the actions lead to. *)
Lemma session_follows (s0 : IntSlider) (events : list Event) (w : World) :
  s_widget df = Ok s0 ->
  exists pdb_id text shown,
    selected df (after events (opening s0)) = Some pdb_id /\
    view_structure df events w =
      (Ok tt,
       emit w text
         (shown ++ [panel_viewer pdb_id (after events (opening s0))])%list) /\
    List.length shown = effective (opening s0) events /\
    Forall (shows_id_of df) shown /\
    (single_line_ids df -> newlines text = S (List.length shown)).
Proof.
  intros E0. pose proof (s_widget_panel_ok s0 E0) as Hc.
  destruct (call_view3d_run (opening s0) w Hc) as [id0 [Hid0 Ecall]].
  destruct (drive_follows events (opening s0)
              (emit w (caption id0) [panel_viewer id0 (opening s0)]) Hc)
    as [text [more [Erest [Hlen [Hall [Hlines Hlast]]]]]].
  destruct (Hlast id0 Hid0) as [id [Hsel Hl]].
  set (v0 := panel_viewer id0 (opening s0)) in *.
  assert (Hsplit : (v0 :: more)%list
                   = (removelast (v0 :: more)
                      ++ [panel_viewer id (after events (opening s0))])%list).
  { rewrite <- Hl, <- (last_cons v0 v0 more).
    apply app_removelast_last. discriminate. }
  assert (Hcount : List.length (removelast (v0 :: more)) = List.length more).
  { apply (f_equal (@List.length Viewer)) in Hsplit.
    rewrite length_app in Hsplit. cbn [List.length] in Hsplit. lia. }
  exists id, (caption id0 ++ text), (removelast (v0 :: more)).
  split; [exact Hsel |]. split.
  { rewrite (view_structure_unfold s0 events w E0).
    unfold bind. rewrite Ecall, Erest, emit_emit, <- Hsplit. reflexivity. }
  split; [now rewrite Hcount |]. split.
  { assert (Hall' : Forall (shows_id_of df) (v0 :: more))
      by (constructor; [now apply panel_viewer_shows | exact Hall]).
    rewrite Hsplit in Hall'. apply Forall_app in Hall'. tauto. }
  intros Hsl. rewrite Hcount, newlines_app, (Hlines Hsl), newlines_caption;
    [reflexivity |].
  apply single_line_In; [exact Hsl | now apply (selected_In (opening s0))].
Qed.

End Sessions.

(** X5: with the slider and the panel modelled from the specification, a
    session of [view_structure] on a non-empty table never raises, whatever
    the user does.  It shows one viewer when the panel is created and one
    more for each action that changes a control, hence at most one per
    action; each viewer is queried by an identifier of the table, and when
    no identifier holds a line feed exactly one line is printed per
    viewer. *)
Theorem session_shows_one_viewer_per_change
  (df : DataFrame) (events : list Event) (w : World) :
  df <> [] ->
  exists s0 text shown,
    s_widget df = Ok s0 /\
    view_structure df events w = (Ok tt, emit w text shown) /\
    List.length shown = S (effective (opening s0) events) /\
    (1 <= List.length shown <= S (List.length events))%nat /\
    Forall (shows_id_of df) shown /\
    (single_line_ids df -> newlines text = List.length shown).
Proof.
  intros Hne. destruct (s_widget_nonempty df Hne) as [s0 [E0 _]].
  destruct (session_follows df s0 events w E0)
    as [id [text [shown [Hsel [Erun [Hlen [Hall Hlines]]]]]]].
  pose proof (effective_le events (opening s0)) as Hle.
  exists s0, text,
    (shown ++ [panel_viewer id (after events (opening s0))])%list.
  split; [exact E0 |]. split; [exact Erun |].
  rewrite length_app. cbn [List.length].
  split; [lia |]. split; [lia |]. split.
  - apply Forall_app. split; [exact Hall |].
    constructor; [| constructor]. now apply panel_viewer_shows.
  - intros Hsl. rewrite (Hlines Hsl). lia.
Qed.

Lemma session_shows_one_viewer_per_change_witness :
  exists s0 text shown,
    s_widget pdb_ids_head = Ok s0 /\
    view_structure pdb_ids_head
      [MoveSlider 1; MoveSlider 9; MoveSlider 12; SetSize 5000] blank
      = (Ok tt, emit blank text shown) /\
    List.length shown
      = S (effective (opening s0)
             [MoveSlider 1; MoveSlider 9; MoveSlider 12; SetSize 5000]) /\
    (1 <= List.length shown
       <= S (List.length
               [MoveSlider 1; MoveSlider 9; MoveSlider 12; SetSize 5000]))%nat /\
    Forall (shows_id_of pdb_ids_head) shown /\
    (single_line_ids pdb_ids_head -> newlines text = List.length shown).
Proof.
  apply (session_shows_one_viewer_per_change pdb_ids_head
           [MoveSlider 1; MoveSlider 9; MoveSlider 12; SetSize 5000] blank).
  discriminate.
Defined.

(** X6: when the panel is created on a non-empty table, before any user
    action, the first identifier of the table is shown: assembly off, no
    surface overlay, on a canvas of 750 by 750. *)
Theorem view_structure_opens_on_first_row
  (row : Row) (rest : DataFrame) (w : World) :
  view_structure (row :: rest) [] w =
    (Ok tt,
     emit w (caption (idList row))
       [ {| query := "pdb:" ++ idList row;
            options := PyDict [("doAssembly", PyBool false)];
            width := 750; height := 750;
            calls := [polymer_style; nonpolymer_style] |} ]).
Proof.
  destruct (s_widget_nonempty (row :: rest)) as [s0 [E0 V0]]; [discriminate |].
  rewrite (view_structure_unfold _ s0 [] w E0).
  unfold bind, call, opening.
  cbn [c_show_bio_assembly c_show_surface c_size c_i drive].
  rewrite V0, view3d_run. reflexivity.
Qed.





(** ** The preview and the entry count *)

Section Preview.

Variable df : DataFrame.

Lemma head_row (k : nat) (row : Row) :
  nth_error (head df) k = Some row ->
  (k < 5)%nat /\ nth_error df k = Some row.
Proof.
  unfold head. rewrite nth_error_firstn.
  destruct (Nat.ltb_spec k 5) as [Hk | Hk]; [auto | discriminate].
Qed.

Lemma nth_error_len (k : nat) (row : Row) :
  nth_error df k = Some row -> 0 <= Z.of_nat k < len df.
Proof.
  intros H. assert (k < List.length df)%nat
    by (apply nth_error_Some; congruence).
  unfold len. lia.
Qed.

End Preview.

Section Numerals.

Lemma newlines_digits (d : Decimal.uint) :
  newlines (NilEmpty.string_of_uint d) = O.
Proof. induction d; cbn; auto. Qed.

Lemma newlines_str (n : Z) : newlines (str n) = O.
Proof.
  unfold str. destruct (Z.to_int n) as [d | d]; cbn.
  - destruct d; try apply newlines_digits. reflexivity.
  - destruct d; try apply newlines_digits. reflexivity.
Qed.

Lemma parse_int_str (n : Z) : parse_int (str n) = Some n.
Proof.
  unfold parse_int, str. rewrite NilZero.isi.
  - cbn. now rewrite DecimalZ.of_to.
  - destruct n; cbn; [discriminate | | discriminate].
    intros [= H]. now apply Unsigned.to_uint_nonnil in H.
  - destruct n; cbn; [discriminate | discriminate |].
    intros [= H]. now apply Unsigned.to_uint_nonnil in H.
Qed.

End Numerals.

(** X8: the preview never fails and lists at most five rows; the row it
    labels [k] (counting from 0) is the one the viewer selects at slider
    position [k + 1]. *)
Theorem preview_row_is_slider_position
  (df : DataFrame) (k : nat) (row : Row) (a s : bool) (size : Z) (w : World) :
  nth_error (head df) k = Some row ->
  (k < 5)%nat /\
  1 <= Z.of_nat k + 1 <= len df /\
  exists v,
    view3d df a s size (Z.of_nat k + 1) w
      = (Ok tt, emit w (caption (idList row)) [v]) /\
    query v = "pdb:" ++ idList row.
Proof.
  intros H. apply head_row in H. destruct H as [Hk Hrow].
  pose proof (nth_error_len df k row Hrow) as Hlen.
  split; [exact Hk |]. split; [lia |].
  destruct (iloc_forward df (Z.of_nat k + 1 - 1)) as [row' [Hnth E]]; [lia |].
  replace (Z.to_nat (Z.of_nat k + 1 - 1)) with k in Hnth by lia.
  assert (row' = row) as -> by congruence.
  rewrite view3d_run, E. eexists. split; reflexivity.
Qed.

Lemma preview_row_is_slider_position_witness :
  nth_error (head (pdb_ids_head ++ [mkRow 153836 "103D"])%list) 4
    = Some (mkRow 153836 "102L") /\
  (4 < 5)%nat /\
  1 <= Z.of_nat 4 + 1 <= len (pdb_ids_head ++ [mkRow 153836 "103D"])%list /\
  exists v,
    view3d (pdb_ids_head ++ [mkRow 153836 "103D"])%list false false 750
      (Z.of_nat 4 + 1) blank
      = (Ok tt, emit blank (caption (idList (mkRow 153836 "102L"))) [v]) /\
    query v = "pdb:" ++ idList (mkRow 153836 "102L").
Proof.
  split; [reflexivity |].
  apply (preview_row_is_slider_position
           (pdb_ids_head ++ [mkRow 153836 "103D"])%list 4 (mkRow 153836 "102L")
           false false 750 blank).
  reflexivity.
Defined.

(** X9: the entry-count cell prints one line, the fixed label followed by
    the number of rows in decimal; read back, the numeral is the number of
    rows, which is also the upper bound the slider is built with.  Nothing
    is shown and nothing is raised, also for an empty table. *)
Theorem entry_count_is_slider_max (pdb_ids : DataFrame) (w : World) :
  exists numeral,
    print_entry_count pdb_ids w
      = (Ok tt,
         emit w ("Current number of PDB entries: " ++ numeral ++ newline) []) /\
    parse_int numeral = Some (arg_max (s_widget_args pdb_ids)) /\
    parse_int numeral = Some (Z.of_nat (List.length pdb_ids)) /\
    newlines ("Current number of PDB entries: " ++ numeral ++ newline) = 1%nat.
Proof.
  exists (str (len pdb_ids)). split.
  - unfold print_entry_count, print, shape0, emit. cbn.
    now rewrite app_nil_r.
  - split; [apply parse_int_str |]. split; [apply parse_int_str |].
    rewrite !newlines_app, newlines_str. reflexivity.
Qed.

(** ** Only the identifier column matters *)

Section Columns.

Variable df : DataFrame.
Variable df' : DataFrame.
Hypothesis same_ids : ids df = ids df'.

Lemma same_ids_len : len df = len df'.
Proof.
  unfold len. f_equal.
  rewrite <- (length_map idList df), <- (length_map idList df').
  now f_equal.
Qed.

Lemma same_ids_lookup (k : Z) :
  rbind (iloc df k) (fun row => Ok (idList row)) =
  rbind (iloc df' k) (fun row => Ok (idList row)).
Proof.
  unfold iloc. rewrite same_ids_len.
  destruct ((len df' <=? k) || (k <? - len df')); [reflexivity |].
  set (n := Z.to_nat (if k <? 0 then k + len df' else k)).
  assert (H : nth_error (ids df) n = nth_error (ids df') n) by now f_equal.
  unfold ids in H. rewrite !nth_error_map in H.
  destruct (nth_error df n), (nth_error df' n); cbn in *; congruence.
Qed.

Lemma same_ids_view3d (a s : bool) (size i : Z) (w : World) :
  view3d df a s size i w = view3d df' a s size i w.
Proof.
  unfold view3d, bind, lift. now rewrite same_ids_lookup.
Qed.

Lemma same_ids_drive (events : list Event) :
  forall (c : Controls) (w : World),
    drive (view3d df) c events w = drive (view3d df') c events w.
Proof.
  induction events as [| e rest IH]; intros c w; cbn [drive];
    [reflexivity |].
  destruct (changes c e); [| apply IH].
  unfold bind, call. rewrite same_ids_view3d.
  destruct (view3d df' _ _ _ _ w) as [[[] | x] w1]; [apply IH | reflexivity].
Qed.

End Columns.

(** X11: the callback and the whole viewer read nothing but the identifier
    column: on two tables with the same identifiers in the same order,
    whatever their record counts, every invocation and every session do
    the same. *)
Theorem only_the_identifiers_matter
  (df df' : DataFrame) (a s : bool) (size i : Z) (events : list Event)
  (w : World) :
  ids df = ids df' ->
  view3d df a s size i w = view3d df' a s size i w /\
  view_structure df events w = view_structure df' events w.
Proof.
  intros H. split; [now apply same_ids_view3d |].
  unfold view_structure, s_widget, s_widget_args.
  rewrite (same_ids_len df df' H).
  apply bind_ext. intros s0 w1.
  unfold interact, bind, call. rewrite (same_ids_view3d df df' H).
  destruct (view3d df' _ _ _ _ w1) as [[[] | x] w2]; [| reflexivity].
  now apply same_ids_drive.
Qed.

Lemma only_the_identifiers_matter_witness :
  ids pdb_ids_head =
    ids [mkRow 0 "100D"; mkRow 1 "101D"; mkRow 2 "101M"; mkRow 3 "102D";
         mkRow 4 "102L"] /\
  view3d pdb_ids_head true true 750 5 blank =
    view3d [mkRow 0 "100D"; mkRow 1 "101D"; mkRow 2 "101M"; mkRow 3 "102D";
            mkRow 4 "102L"] true true 750 5 blank /\
  view_structure pdb_ids_head [MoveSlider 2] blank =
    view_structure [mkRow 0 "100D"; mkRow 1 "101D"; mkRow 2 "101M";
                    mkRow 3 "102D"; mkRow 4 "102L"] [MoveSlider 2] blank.
Proof.
  split; [reflexivity |].
  apply (only_the_identifiers_matter pdb_ids_head
           [mkRow 0 "100D"; mkRow 1 "101D"; mkRow 2 "101M"; mkRow 3 "102D";
            mkRow 4 "102L"] true true 750 5 [MoveSlider 2] blank).
  reflexivity.
Defined.
